(** * temfpy.uncertainty_quantification

    A shallow embedding of the four test functions of
    [temfpy/uncertainty_quantification.py] ([borehole], [ishigami],
    [eoq_model], [simple_linear_function]) and the properties stated about
    them.

    Layout: Python exceptions and the evaluation monad; the numeric
    interface the functions are written against (Python's arithmetic
    operators and the [math]/[numpy] primitives); the functions themselves;
    the instance at the real numbers and an executable instance at binary64
    floats; then the theorems.

    The input vector is a Python list of Python numbers, as in the
    docstrings of the module. *)

From Stdlib Require Import ZArith List Bool Floats Uint63 Reals Lra Permutation.
Import ListNotations.

Set Warnings "-inexact-float".

(** ** Exceptions and evaluation *)

(** The exceptions the module's own statements can raise: [assert]
    ([AssertionError]), tuple unpacking ([ValueError]), subscripting
    ([IndexError]) and the division of two Python numbers
    ([ZeroDivisionError]). *)
Inductive exn : Set :=
  | AssertionError
  | ValueError
  | IndexError
  | ZeroDivisionError.

Inductive result (A : Type) : Type :=
  | Ok (a : A)
  | Raise (e : exn).

Arguments Ok {A} a.
Arguments Raise {A} e.

Definition exn_eqb (e1 e2 : exn) : bool :=
  match e1, e2 with
  | AssertionError, AssertionError => true
  | ValueError, ValueError => true
  | IndexError, IndexError => true
  | ZeroDivisionError, ZeroDivisionError => true
  | _, _ => false
  end.

(** [raises e r]: the call ended by raising [e]. *)
Definition raises {A : Type} (e : exn) (r : result A) : bool :=
  match r with
  | Ok _ => false
  | Raise e' => exn_eqb e e'
  end.

(** A call runs in the interpreter state [W] (everything that outlives the
    call: module globals, caches, output streams) and yields a result
    together with the state it leaves behind.  None of the four functions
    reads or writes it. *)
Definition Py (W A : Type) : Type := W -> result A * W.

Definition ret {W A : Type} (a : A) : Py W A := fun w => (Ok a, w).

Definition raise {W A : Type} (e : exn) : Py W A := fun w => (Raise e, w).

Definition bind {W A B : Type} (c : Py W A) (k : A -> Py W B) : Py W B :=
  fun w =>
    match c w with
    | (Ok a, w') => k a w'
    | (Raise e, w') => (Raise e, w')
    end.

Declare Scope py_scope.
Delimit Scope py_scope with py.
Notation "x <- c ;; k" := (bind c (fun x => k))
  (at level 61, c at next level, right associativity) : py_scope.
Notation "c ;; k" := (bind c (fun _ => k))
  (at level 61, right associativity) : py_scope.
Open Scope py_scope.

(** [assert cond], with assertions enabled as the interpreter runs by
    default. *)
Definition assert_ {W : Type} (cond : bool) : Py W unit :=
  if cond then ret tt else raise AssertionError.

(** [x[i]] for a literal index [i >= 0] *)
Definition getitem {W T : Type} (x : list T) (i : nat) : Py W T :=
  match nth_error x i with
  | Some v => ret v
  | None => raise IndexError
  end.

(** [m, c, s = x]: the target list has three names, so any other length is a
    [ValueError] ("not enough values" or "too many values to unpack"). *)
Definition unpack3 {W T : Type} (x : list T) : Py W (T * T * T) :=
  match x with
  | [m; c; s] => ret (m, c, s)
  | _ => raise ValueError
  end.

(** A keyword parameter with a default value. *)
Definition kwarg {T : Type} (given : option T) (default : T) : T :=
  match given with
  | Some v => v
  | None => default
  end.

(** ** The numeric interface *)

(** The operators applied to the vector elements: [+], [-], [*], [/] and
    [np.sqrt], the integer literals of the source and the float literal
    [0.1].  [truediv] is the quotient itself and [eq_zero] the test [x == 0]
    that the division of two Python numbers makes on its divisor. *)
Class PyNumber (T : Type) : Type := {
  of_int : Z -> T;
  lit_tenth : T;
  add : T -> T -> T;
  sub : T -> T -> T;
  mul : T -> T -> T;
  truediv : T -> T -> T;
  eq_zero : T -> bool;
  np_sqrt : T -> T
}.

(** [x / y] on two Python numbers: a zero divisor raises
    [ZeroDivisionError]. *)
Definition py_truediv {W T : Type} `{PyNumber T} (x y : T) : Py W T :=
  if eq_zero y then raise ZeroDivisionError else ret (truediv x y).

(** [x / y] where an operand is a numpy scalar (the value of [np.log], or
    computed from one): numpy's division, which raises nothing. *)
Definition np_truediv {T : Type} `{PyNumber T} (x y : T) : T :=
  truediv x y.

(** [**] with a literal exponent, [math.pi], [np.sin] and [np.log]. *)
Class PyMath (T : Type) `{PyNumber T} : Type := {
  power : T -> nat -> T;
  math_pi : T;
  np_sin : T -> T;
  np_log : T -> T
}.

(** ** The functions *)

Section Functions.

Context {W T : Type} `{PyMath T}.

Definition borehole (x : list T) : Py W T :=
  assert_ (length x =? 8)%nat ;;
  r_w <- getitem x 0 ;;
  r <- getitem x 1 ;;
  T_u <- getitem x 2 ;;
  H_u <- getitem x 3 ;;
  T_l <- getitem x 4 ;;
  H_l <- getitem x 5 ;;
  L <- getitem x 6 ;;
  K_w <- getitem x 7 ;;
  let a := mul (mul (mul (of_int 2) math_pi) T_u) (sub H_u H_l) in
  ratio <- py_truediv r r_w ;;
  let b := np_log ratio in
  let c := np_truediv (mul (mul (of_int 2) L) T_u)
                      (mul (mul b (power r_w 2)) K_w) in
  d <- py_truediv T_u T_l ;;
  let rslt := np_truediv a (mul b (add (add (of_int 1) c) d)) in
  ret rslt.

Definition ishigami (x : list T) (a b : option T) : Py W T :=
  let a := kwarg a (of_int 7) in
  let b := kwarg b lit_tenth in
  assert_ (length x =? 3)%nat ;;
  x2 <- getitem x 2 ;;
  x0 <- getitem x 0 ;;
  x1 <- getitem x 1 ;;
  let rslt := add (mul (add (of_int 1) (mul b (power x2 4))) (np_sin x0))
                  (mul a (power (np_sin x1) 2)) in
  ret rslt.

End Functions.

Section ArithmeticFunctions.

Context {W T : Type} `{PyNumber T}.

Definition eoq_model (x : list T) (r : option T) : Py W T :=
  let r := kwarg r lit_tenth in
  mcs <- unpack3 x ;;
  let '(m, c, s) := mcs in
  q <- py_truediv (mul (mul (of_int 24) m) s) (mul r c) ;;
  let y := np_sqrt q in
  ret y.

(** The builtin [sum(x)]: start from the integer [0] and add the elements
    from left to right.  (Interpreters from 3.12 on compensate the rounding
    error of a float sum; over the reals the two agree.) *)
Definition builtin_sum (x : list T) : T :=
  fold_left add x (of_int 0).

Definition simple_linear_function (x : list T) : Py W T :=
  ret (builtin_sum x).

End ArithmeticFunctions.

(** ** The real numbers *)

(** The test [x == 0] on a real number. *)
Definition R_eq_zero (x : R) : bool :=
  if Req_dec_T x 0 then true else false.

(** Each operator is read as the real function it approximates.  The
    Standard Library's division, logarithm and square root are total: on a
    zero divisor, a non-positive argument of [ln] or a negative argument of
    [sqrt] they return a conventional value, where numpy produces an
    infinity or a NaN, which no real number stands for.  Every statement
    below about a value that [eoq_model] or [borehole] returns is therefore
    restricted, by a hypothesis, to arguments on which each of these
    operations has its mathematical value. *)
#[export] Instance R_number : PyNumber R := {|
  of_int := IZR;
  lit_tenth := 0.1%R;
  add := Rplus;
  sub := Rminus;
  mul := Rmult;
  truediv := Rdiv;
  eq_zero := R_eq_zero;
  np_sqrt := sqrt
|}.

#[export] Instance R_math : PyMath R := {|
  power := pow;
  math_pi := PI;
  np_sin := sin;
  np_log := ln
|}.

(** ** Binary64 floats *)

(** The arithmetic operators and the square root on IEEE 754 doubles, each
    correctly rounded, as the runtime computes them on float operands. *)

Definition float_of_Z (z : Z) : float :=
  match z with
  | Z0 => PrimFloat.of_uint63 0
  | Zpos _ => PrimFloat.of_uint63 (Uint63.of_Z z)
  | Zneg p => PrimFloat.opp (PrimFloat.of_uint63 (Uint63.of_Z (Zpos p)))
  end.

#[export] Instance float_number : PyNumber float := {|
  of_int := float_of_Z;
  lit_tenth := 0.1%float;
  add := PrimFloat.add;
  sub := PrimFloat.sub;
  mul := PrimFloat.mul;
  truediv := PrimFloat.div;
  eq_zero := fun x => PrimFloat.eqb x 0;
  np_sqrt := PrimFloat.sqrt
|}.


(** ** Notions used by the statements *)

(** The mathematical sum of a finite sequence of reals: the empty sum is [0]
    and a sequence [v :: x] sums to [v] plus the sum of [x]. *)
Fixpoint math_sum (x : list R) : R :=
  match x with
  | [] => 0%R
  | v :: x' => (v + math_sum x')%R
  end.

(** [result_lt r1 r2]: both calls returned, and the first value is strictly
    below the second. *)
Definition result_lt (r1 r2 : result R) : Prop :=
  match r1, r2 with
  | Ok q1, Ok q2 => (q1 < q2)%R
  | _, _ => False
  end.

(** The arguments on which the division and the square root of [eoq_model]
    have their mathematical value: a non-zero divisor [r * c] and a
    non-negative quotient under the root. *)
Definition eoq_domain (m c s r : R) : Prop :=
  (r * c <> 0 /\ 0 <= 24 * m * s / (r * c))%R.

(** The arguments on which every operation of [borehole] has its
    mathematical value: non-zero divisors [r_w] and [T_l], a positive
    argument of the logarithm, and non-zero divisors of the two remaining
    quotients. *)
Definition borehole_defined (r_w r T_u T_l L K_w : R) : Prop :=
  (r_w <> 0 /\ T_l <> 0 /\ 0 < r / r_w /\
   ln (r / r_w) * r_w ^ 2 * K_w <> 0 /\
   ln (r / r_w)
   * (1 + 2 * L * T_u / (ln (r / r_w) * r_w ^ 2 * K_w) + T_u / T_l) <> 0)%R.

(** The physical range of the geometry and material arguments of
    [borehole]: a borehole radius below the radius of influence, and positive
    transmissivities, length and conductivity. *)
Definition borehole_domain (r_w r T_u T_l L K_w : R) : Prop :=
  (0 < r_w < r /\ 0 < T_u /\ 0 < T_l /\ 0 < L /\ 0 < K_w)%R.

(** The outcomes of a call that got past its shape check: a value or a
    [ZeroDivisionError]. *)
Definition past_shape_check {A : Type} (r : result A) : Prop :=
  (exists v, r = Ok v) \/ r = Raise ZeroDivisionError.

(** ** Shape errors *)

Section Arity.

Context {W T : Type} `{PyMath T}.

Lemma past_shape_check_raises {A : Type} (r : result A) :
  past_shape_check r ->
  raises AssertionError r = false /\
  raises ValueError r = false /\
  raises IndexError r = false.
Proof.
  intros [[v ->] | ->]; repeat split.
Qed.

(** On a vector of eight elements the assertion passes and every subscript
    is in range. *)
Lemma borehole_length_8 (x : list T) (w : W) :
  length x = 8%nat -> past_shape_check (fst (borehole x w)).
Proof.
  intro Hlen.
  do 8 (destruct x as [| ? x]; [discriminate Hlen |]).
  destruct x; [| discriminate Hlen].
  cbv [borehole bind assert_ getitem py_truediv ret raise]. cbn.
  repeat match goal with
         | |- context [eq_zero ?y] => destruct (eq_zero y)
         end; cbn;
    first [left; eexists; reflexivity | right; reflexivity].
Qed.

Lemma borehole_length_other (x : list T) (w : W) :
  length x <> 8%nat -> borehole x w = (Raise AssertionError, w).
Proof.
  intro Hlen. apply Nat.eqb_neq in Hlen.
  unfold borehole, bind, assert_. now rewrite Hlen.
Qed.

Lemma ishigami_length_3 (x : list T) (a b : option T) (w : W) :
  length x = 3%nat -> exists v, ishigami x a b w = (Ok v, w).
Proof.
  intro Hlen.
  do 3 (destruct x as [| ? x]; [discriminate Hlen |]).
  destruct x; [| discriminate Hlen].
  eexists. reflexivity.
Qed.

Lemma ishigami_length_other (x : list T) (a b : option T) (w : W) :
  length x <> 3%nat -> ishigami x a b w = (Raise AssertionError, w).
Proof.
  intro Hlen. apply Nat.eqb_neq in Hlen.
  unfold ishigami, bind, assert_. now rewrite Hlen.
Qed.

Lemma eoq_model_length_3 (x : list T) (r : option T) (w : W) :
  length x = 3%nat -> past_shape_check (fst (eoq_model x r w)).
Proof.
  intro Hlen.
  do 3 (destruct x as [| ? x]; [discriminate Hlen |]).
  destruct x; [| discriminate Hlen].
  cbv [eoq_model bind unpack3 py_truediv ret raise]. cbn.
  match goal with
  | |- context [eq_zero ?y] => destruct (eq_zero y)
  end; cbn;
    first [left; eexists; reflexivity | right; reflexivity].
Qed.

Lemma eoq_model_length_other (x : list T) (r : option T) (w : W) :
  length x <> 3%nat -> eoq_model x r w = (Raise ValueError, w).
Proof.
  intro Hlen.
  destruct x as [| m [| c [| s [| ? ?]]]]; try reflexivity.
  now elim Hlen.
Qed.

(** C4: a call fails with the function's shape error exactly when the
    vector has the wrong length: [borehole] raises [AssertionError] iff the
    length is not 8, [ishigami] raises [AssertionError] iff it is not 3, and
    [eoq_model] raises the unpacking [ValueError] iff it is not 3; on a
    vector of the right length none of them is raised. *)
Theorem wrong_length_raises (x : list T) (a b r : option T) (w : W) :
  raises AssertionError (fst (borehole x w)) = negb (length x =? 8)%nat /\
  raises AssertionError (fst (ishigami x a b w)) = negb (length x =? 3)%nat /\
  raises ValueError (fst (eoq_model x r w)) = negb (length x =? 3)%nat.
Proof.
  repeat split.
  - destruct (Nat.eqb_spec (length x) 8) as [Hlen | Hlen].
    + apply past_shape_check_raises. now apply borehole_length_8.
    + now rewrite borehole_length_other.
  - destruct (Nat.eqb_spec (length x) 3) as [Hlen | Hlen].
    + destruct (ishigami_length_3 x a b w Hlen) as [v ->]. reflexivity.
    + now rewrite ishigami_length_other.
  - destruct (Nat.eqb_spec (length x) 3) as [Hlen | Hlen].
    + apply past_shape_check_raises. now apply eoq_model_length_3.
    + now rewrite eoq_model_length_other.
Qed.

End Arity.

(** ** The functions on real numbers *)

Section OnReals.

Context {W : Type}.

Local Open Scope R_scope.

Lemma Ok_eq {A : Type} (a b : A) (w : W) : a = b -> (Ok a, w) = (Ok b, w).
Proof. now intros ->. Qed.

Lemma bind_value {A B : Type} (c : Py W A) (k : A -> Py W B) (a : A)
    (w w' : W) :
  c w = (Ok a, w') -> bind c k w = k a w'.
Proof. intro Hc. unfold bind. now rewrite Hc. Qed.

Lemma R_eq_zero_false (x : R) : x <> 0 -> R_eq_zero x = false.
Proof.
  intro Hx. unfold R_eq_zero. now destruct (Req_dec_T x 0).
Qed.

Lemma R_eq_zero_true (x : R) : x = 0 -> R_eq_zero x = true.
Proof.
  intro Hx. unfold R_eq_zero. now destruct (Req_dec_T x 0).
Qed.

(** The division of two Python numbers, by cases on the divisor. *)
Lemma py_truediv_value (x y : R) (w : W) :
  y <> 0 -> py_truediv x y w = (Ok (x / y), w).
Proof.
  intro Hy. unfold py_truediv. cbn. now rewrite (R_eq_zero_false y Hy).
Qed.

Lemma py_truediv_zero (x y : R) (w : W) :
  y = 0 -> py_truediv x y w = (Raise ZeroDivisionError, w).
Proof.
  intro Hy. unfold py_truediv. cbn. now rewrite (R_eq_zero_true y Hy).
Qed.

(** [eoq_model] past its division. *)
Lemma eoq_model_value (m c s r : R) (w : W) :
  r * c <> 0 ->
  eoq_model [m; c; s] (Some r) w = (Ok (sqrt (24 * m * s / (r * c))), w).
Proof.
  intro Hrc.
  cbv [eoq_model kwarg unpack3]. cbn [bind ret].
  now rewrite (bind_value _ _ _ _ _ (py_truediv_value _ _ w Hrc)).
Qed.

Lemma eoq_model_zero_divisor (m c s r : R) (w : W) :
  r * c = 0 ->
  eoq_model [m; c; s] (Some r) w = (Raise ZeroDivisionError, w).
Proof.
  intro Hrc.
  cbv [eoq_model kwarg unpack3]. cbn [bind ret].
  unfold bind at 1. now rewrite (py_truediv_zero _ _ w Hrc).
Qed.

(** [borehole] past its two divisions of Python numbers. *)
Lemma borehole_value (r_w r T_u H_u T_l H_l L K_w : R) (w : W) :
  r_w <> 0 ->
  T_l <> 0 ->
  borehole [r_w; r; T_u; H_u; T_l; H_l; L; K_w] w
  = (Ok (2 * PI * T_u * (H_u - H_l)
         / (ln (r / r_w)
            * (1 + 2 * L * T_u / (ln (r / r_w) * r_w ^ 2 * K_w)
               + T_u / T_l))), w).
Proof.
  intros Hw Hl.
  cbv [borehole assert_ getitem]. cbn [length Nat.eqb nth_error bind ret].
  rewrite (bind_value _ _ _ _ _ (py_truediv_value r r_w w Hw)).
  now rewrite (bind_value _ _ _ _ _ (py_truediv_value T_u T_l w Hl)).
Qed.

Lemma borehole_zero_divisor (r_w r T_u H_u T_l H_l L K_w : R) (w : W) :
  r_w = 0 \/ T_l = 0 ->
  borehole [r_w; r; T_u; H_u; T_l; H_l; L; K_w] w
  = (Raise ZeroDivisionError, w).
Proof.
  intro Hzero.
  cbv [borehole assert_ getitem]. cbn [length Nat.eqb nth_error bind ret].
  destruct (Req_dec_T r_w 0) as [Hw | Hw].
  - unfold bind at 1. now rewrite (py_truediv_zero r r_w w Hw).
  - destruct Hzero as [Hw0 | Hl]; [contradiction |].
    rewrite (bind_value _ _ _ _ _ (py_truediv_value r r_w w Hw)).
    unfold bind at 1. now rewrite (py_truediv_zero T_u T_l w Hl).
Qed.

(** C1, as amended: on a vector [(m, c, s)] and an interest rate [r] with
    [r * c <> 0] and [(24 * m * s) / (r * c) >= 0], [eoq_model] returns
    [sqrt ((24 * m * s) / (r * c))]; a call that leaves [r] out is the call
    with [r = 0.1]. *)
Theorem eoq_model_formula (m c s r : R) (given : option R) (w : W) :
  eoq_domain m c s r ->
  eoq_model [m; c; s] (Some r) w = (Ok (sqrt ((24 * m * s) / (r * c))), w) /\
  eoq_model [m; c; s] given w
  = eoq_model [m; c; s] (Some (kwarg given 0.1)) w.
Proof.
  intros [Hrc _]. split.
  - now apply eoq_model_value.
  - reflexivity.
Qed.

(** C2, as amended: on a vector [(r_w, r, T_u, H_u, T_l, H_l, L, K_w)] on
    which every operation of the formula has its mathematical value
    ([r_w <> 0], [T_l <> 0], [r / r_w > 0], [b * r_w^2 * K_w <> 0] and
    [b * (1 + c + d) <> 0]), [borehole] returns [a / (b * (1 + c + d))]
    with [a = 2 * pi * T_u * (H_u - H_l)], [b = ln (r / r_w)],
    [c = (2 * L * T_u) / (b * r_w^2 * K_w)] and [d = T_u / T_l]. *)
Theorem borehole_formula (r_w r T_u H_u T_l H_l L K_w : R) (w : W) :
  borehole_defined r_w r T_u T_l L K_w ->
  let a := 2 * PI * T_u * (H_u - H_l) in
  let b := ln (r / r_w) in
  let c := (2 * L * T_u) / (b * r_w ^ 2 * K_w) in
  let d := T_u / T_l in
  borehole [r_w; r; T_u; H_u; T_l; H_l; L; K_w] w
  = (Ok (a / (b * (1 + c + d))), w).
Proof.
  intros (Hw & Hl & _) a b c d.
  now apply borehole_value.
Qed.

(** C3: on a vector of three reals and parameters [a] and [b], [ishigami]
    returns [(1 + b * x2^4) * sin x0 + a * (sin x1)^2]; a parameter left
    out is [a = 7], respectively [b = 0.1]; the sine is the one in radians,
    of period [2 * PI]. *)
Theorem ishigami_formula (x0 x1 x2 a b : R) (a' b' : option R) (w : W) :
  ishigami [x0; x1; x2] (Some a) (Some b) w
  = (Ok ((1 + b * x2 ^ 4) * sin x0 + a * sin x1 ^ 2), w) /\
  ishigami [x0; x1; x2] a' b' w
  = ishigami [x0; x1; x2] (Some (kwarg a' 7)) (Some (kwarg b' 0.1)) w /\
  ishigami [x0 + 2 * PI; x1 + 2 * PI; x2] (Some a) (Some b) w
  = ishigami [x0; x1; x2] (Some a) (Some b) w.
Proof.
  split; [reflexivity | split; [reflexivity |]].
  cbv [ishigami kwarg bind assert_ getitem ret]. cbn.
  now rewrite !sin_plus, !sin_2PI, !cos_2PI, !Rmult_1_r, !Rmult_0_r, !Rplus_0_r.
Qed.

(** Python's left-to-right accumulation, from any starting value. *)
Lemma fold_left_Rplus (x : list R) (acc : R) :
  fold_left Rplus x acc = acc + math_sum x.
Proof.
  revert acc.
  induction x as [| v x IH]; intro acc; cbn.
  - now rewrite Rplus_0_r.
  - rewrite IH. apply Rplus_assoc.
Qed.

Lemma builtin_sum_math_sum (x : list R) : builtin_sum x = math_sum x.
Proof.
  unfold builtin_sum. cbn. rewrite fold_left_Rplus. apply Rplus_0_l.
Qed.

(** C5: on every finite sequence of reals, whatever the signs of its
    elements, [simple_linear_function] returns the mathematical sum of the
    elements; on the empty sequence it returns [0]. *)
Theorem simple_linear_function_sum (x : list R) (w : W) :
  simple_linear_function x w = (Ok (math_sum x), w) /\
  simple_linear_function (T := R) [] w = (Ok 0, w).
Proof.
  split.
  - unfold simple_linear_function, ret. now rewrite builtin_sum_math_sum.
  - reflexivity.
Qed.

(** The decimal of the docstring agrees with the square root of 360 to
    fifteen places. *)
Lemma sqrt_360_decimal : Rabs (sqrt 360 - 18.973665961010276) < / 10 ^ 15.
Proof.
  assert (Hup : sqrt 360 < 18.973665961010277).
  { rewrite <- (sqrt_square 18.973665961010277) by lra.
    apply sqrt_lt_1_alt. lra. }
  assert (Hlo : 18.973665961010275 < sqrt 360).
  { rewrite <- (sqrt_square 18.973665961010275) by lra.
    apply sqrt_lt_1_alt. lra. }
  apply Rabs_def1; lra.
Qed.

(** C6: on [(1, 2, 3)] with the default interest rate, [eoq_model] returns
    the square root of 360, which is 18.973665961010276 to fifteen decimal
    places; evaluated in binary64 arithmetic it returns the float written
    18.973665961010276. *)
Theorem eoq_model_example (w : W) :
  eoq_model [1; 2; 3] None w = (Ok (sqrt 360), w) /\
  Rabs (sqrt 360 - 18.973665961010276) < / 10 ^ 15 /\
  eoq_model [1; 2; 3]%float None w = (Ok 18.973665961010276%float, w).
Proof.
  split; [| split].
  - change (eoq_model [1; 2; 3] (Some 0.1) w = (Ok (sqrt 360), w)).
    rewrite eoq_model_value by lra.
    apply Ok_eq. f_equal. lra.
  - exact sqrt_360_decimal.
  - vm_compute. reflexivity.
Qed.

(** C9: [ishigami] returns [1] on [(PI / 2, 0, 0)] with the default
    parameters. *)
Theorem ishigami_half_pi (w : W) :
  ishigami [PI / 2; 0; 0] None None w = (Ok 1, w).
Proof.
  cbv [ishigami kwarg bind assert_ getitem ret]. cbn.
  rewrite sin_PI2, sin_0. do 2 f_equal. lra.
Qed.

(** C10: [ishigami] is even in its third coordinate, for all parameters,
    given or defaulted. *)
Theorem ishigami_even_in_x2 (x0 x1 x2 : R) (a b : option R) (w : W) :
  ishigami [x0; x1; - x2] a b w = ishigami [x0; x1; x2] a b w.
Proof.
  cbv [ishigami bind assert_ getitem ret]. cbn.
  do 2 f_equal. f_equal. f_equal. f_equal. ring.
Qed.

(** When the demand [m] and the product [r * c] have the same strict sign,
    the quantity under the root is a positive multiple of [s]. *)
Lemma eoq_radicand_scale (m c r : R) :
  0 < m * (r * c) -> 0 < m / (r * c).
Proof.
  generalize (r * c). intros p Hsign.
  destruct (Rtotal_order p 0) as [Hneg | [Hzero | Hpos]].
  - replace (m / p) with ((- m) / (- p)) by (field; lra).
    apply Rdiv_lt_0_compat; nra.
  - rewrite Hzero in Hsign. lra.
  - apply Rdiv_lt_0_compat; nra.
Qed.

(** C7, as amended: when [m * (r * c) > 0] (demand and [r * c] of the same
    strict sign, as for positive [m], [c] and [r]) and [0 <= s1 < s2],
    [eoq_model] returns a strictly smaller value at setup cost [s1] than at
    [s2]. *)
Theorem eoq_model_increasing_in_s (m c r s1 s2 : R) (w : W) :
  0 < m * (r * c) ->
  0 <= s1 < s2 ->
  result_lt (fst (eoq_model [m; c; s1] (Some r) w))
            (fst (eoq_model [m; c; s2] (Some r) w)).
Proof.
  intros Hsign [Hs1 Hs12].
  pose proof (eoq_radicand_scale m c r Hsign) as Hk.
  assert (Hrc : r * c <> 0) by (intro H0; rewrite H0 in Hsign; lra).
  rewrite !eoq_model_value by exact Hrc. cbn [fst result_lt].
  replace (24 * m * s1 / (r * c)) with (24 * s1 * (m / (r * c)))
    by (unfold Rdiv; ring).
  replace (24 * m * s2 / (r * c)) with (24 * s2 * (m / (r * c)))
    by (unfold Rdiv; ring).
  apply sqrt_lt_1_alt. nra.
Qed.

End OnReals.

(** ** Concrete runs *)

Local Open Scope R_scope.

(** The monotonicity theorem at [m = 1], [c = 2], [r = 0.1], raising the
    setup cost from 3 to 4. *)
Lemma eoq_model_increasing_in_s_witness :
  0 < 1 * (0.1 * 2) /\ 0 <= 3 < 4 /\
  result_lt (fst (eoq_model [1; 2; 3] (Some 0.1) tt))
            (fst (eoq_model [1; 2; 4] (Some 0.1) tt)).
Proof.
  split; [lra | split; [lra |]].
  apply (eoq_model_increasing_in_s 1 2 0.1 3 4 tt); lra.
Defined.

(** C7, as stated, fails when nothing is ordered per period: with [m = 0]
    the result is [0] at every setup cost, so raising [s] from 1 to 2 does
    not raise it. *)
Lemma eoq_model_flat_at_zero_demand :
  1 < 2 /\
  eoq_model [0; 1; 1] (Some 0.1) tt = (Ok 0, tt) /\
  eoq_model [0; 1; 2] (Some 0.1) tt = (Ok 0, tt) /\
  ~ result_lt (fst (eoq_model [0; 1; 1] (Some 0.1) tt))
              (fst (eoq_model [0; 1; 2] (Some 0.1) tt)).
Proof.
  assert (H1 : eoq_model [0; 1; 1] (Some 0.1) tt = (Ok 0, tt)).
  { rewrite eoq_model_value by lra.
    replace (24 * 0 * 1 / (0.1 * 1)) with 0 by lra.
    now rewrite sqrt_0. }
  assert (H2 : eoq_model [0; 1; 2] (Some 0.1) tt = (Ok 0, tt)).
  { rewrite eoq_model_value by lra.
    replace (24 * 0 * 2 / (0.1 * 1)) with 0 by lra.
    now rewrite sqrt_0. }
  repeat split; [lra | exact H1 | exact H2 |].
  rewrite H1, H2. cbn. lra.
Qed.

(** The docstring examples, run in binary64 arithmetic. *)
Example simple_linear_function_docstring :
  simple_linear_function [1; 2; 3]%float tt = (Ok 6%float, tt).
Proof. vm_compute. reflexivity. Qed.

Example eoq_model_two_values :
  eoq_model [1; 2]%float None tt = (Raise ValueError, tt).
Proof. reflexivity. Qed.

(** A sum with negative summands. *)
Example simple_linear_function_signed :
  simple_linear_function [1; -2.5; 3; -4] tt = (Ok (-2.5), tt).
Proof.
  destruct (simple_linear_function_sum [1; -2.5; 3; -4] tt) as [-> _].
  cbn. do 2 f_equal. lra.
Qed.

(** ** Subscripts behind the length assertion *)

Section Subscripts.

Context {W T : Type} `{PyMath T}.

(** X1: no call of [borehole] or [ishigami] ends in an [IndexError]: the
    length assertion runs first, so every subscript that is evaluated is in
    range. *)
Theorem subscripts_in_range (x : list T) (a b : option T) (w : W) :
  raises IndexError (fst (borehole x w)) = false /\
  raises IndexError (fst (ishigami x a b w)) = false.
Proof.
  split.
  - destruct (Nat.eq_dec (length x) 8) as [Hlen | Hlen].
    + apply past_shape_check_raises. now apply borehole_length_8.
    + now rewrite borehole_length_other.
  - destruct (Nat.eq_dec (length x) 3) as [Hlen | Hlen].
    + destruct (ishigami_length_3 x a b w Hlen) as [v ->]. reflexivity.
    + now rewrite ishigami_length_other.
Qed.

End Subscripts.

(** ** Further properties on real numbers *)

(** Runs a call on a literal vector down to its returned expression. *)
Ltac py_run :=
  cbv [borehole ishigami eoq_model simple_linear_function
       kwarg bind assert_ getitem unpack3 ret];
  cbn.

Section SumProperties.

Context {W : Type}.

Local Open Scope R_scope.

Lemma math_sum_app (x y : list R) :
  math_sum (x ++ y) = math_sum x + math_sum y.
Proof.
  induction x as [| v x IH]; cbn.
  - now rewrite Rplus_0_l.
  - rewrite IH. now rewrite Rplus_assoc.
Qed.

Lemma math_sum_map_mult (k : R) (x : list R) :
  math_sum (map (Rmult k) x) = k * math_sum x.
Proof.
  induction x as [| v x IH]; cbn.
  - now rewrite Rmult_0_r.
  - rewrite IH. ring.
Qed.

Lemma math_sum_perm (x y : list R) :
  Permutation x y -> math_sum x = math_sum y.
Proof.
  induction 1 as [| v x y _ IH | u v x | x y z _ IHxy _ IHyz]; cbn.
  - reflexivity.
  - now rewrite IH.
  - ring.
  - now rewrite IHxy.
Qed.

(** X2: summing a concatenation is summing the two parts and adding the
    results. *)
Theorem simple_linear_function_app (x y : list R) (w : W) :
  simple_linear_function (x ++ y) w
  = (vx <- simple_linear_function x ;;
     vy <- simple_linear_function y ;;
     ret (vx + vy)) w.
Proof.
  py_run. apply Ok_eq.
  rewrite !builtin_sum_math_sum. apply math_sum_app.
Qed.

(** X3: multiplying every element by [k] multiplies the result by [k]. *)
Theorem simple_linear_function_scale (k : R) (x : list R) (w : W) :
  simple_linear_function (map (Rmult k) x) w
  = (v <- simple_linear_function x ;; ret (k * v)) w.
Proof.
  py_run. apply Ok_eq.
  rewrite !builtin_sum_math_sum. apply math_sum_map_mult.
Qed.

(** X4: the result does not depend on the order of the elements. *)
Theorem simple_linear_function_perm (x y : list R) (w : W) :
  Permutation x y ->
  simple_linear_function x w = simple_linear_function y w.
Proof.
  intro Hperm. py_run. apply Ok_eq.
  rewrite !builtin_sum_math_sum. now apply math_sum_perm.
Qed.

(** X5: the result lies within the sum of the absolute values of the
    elements. *)
Theorem simple_linear_function_triangle (x : list R) (w : W) :
  exists v,
    simple_linear_function x w = (Ok v, w) /\
    Rabs v <= math_sum (map Rabs x).
Proof.
  exists (math_sum x). split.
  - py_run. apply Ok_eq. apply builtin_sum_math_sum.
  - induction x as [| u x IH]; cbn.
    + rewrite Rabs_R0. lra.
    + eapply Rle_trans; [apply Rabs_triang |]. lra.
Qed.

End SumProperties.

Section IshigamiProperties.

Context {W : Type}.

Local Open Scope R_scope.

Lemma sin_sqr_le_1 (x : R) : 0 <= sin x ^ 2 <= 1.
Proof.
  pose proof (SIN_bound x) as [Hlo Hhi]. nra.
Qed.

Lemma sin_int_mult_PI (k : Z) : sin (IZR k * PI) = 0.
Proof. apply sin_eq_0_1. now exists k. Qed.

(** X6: the value of [ishigami] is bounded in absolute value by
    [1 + |b| * x2^4 + |a|]. *)
Theorem ishigami_bound (x0 x1 x2 a b : R) (w : W) :
  exists q,
    ishigami [x0; x1; x2] (Some a) (Some b) w = (Ok q, w) /\
    Rabs q <= 1 + Rabs b * x2 ^ 4 + Rabs a.
Proof.
  exists ((1 + b * x2 ^ 4) * sin x0 + a * sin x1 ^ 2).
  split; [reflexivity |].
  pose proof (SIN_bound x0) as [Hlo Hhi].
  pose proof (sin_sqr_le_1 x1) as [Hs0 Hs1].
  assert (Hx : 0 <= x2 ^ 4) by (replace (x2 ^ 4) with ((x2 ^ 2) ^ 2) by ring;
                                 apply pow2_ge_0).
  eapply Rle_trans; [apply Rabs_triang |].
  rewrite !Rabs_mult.
  assert (H1 : Rabs (1 + b * x2 ^ 4) <= 1 + Rabs b * x2 ^ 4).
  { eapply Rle_trans; [apply Rabs_triang |].
    rewrite Rabs_R1, Rabs_mult, (Rabs_pos_eq (x2 ^ 4)) by exact Hx. lra. }
  assert (H2 : Rabs (sin x0) <= 1) by (apply Rabs_le; lra).
  assert (H3 : Rabs (sin x1 ^ 2) <= 1) by (apply Rabs_le; lra).
  apply Rplus_le_compat.
  - rewrite <- (Rmult_1_r (1 + Rabs b * x2 ^ 4)).
    apply Rmult_le_compat; auto using Rabs_pos.
  - rewrite <- (Rmult_1_r (Rabs a)) at 2.
    apply Rmult_le_compat_l; auto using Rabs_pos.
Qed.


(** X8: [ishigami] is even in its second coordinate and has period [PI] in
    it. *)
Theorem ishigami_x1_symmetry (x0 x1 x2 : R) (a b : option R) (w : W) :
  ishigami [x0; - x1; x2] a b w = ishigami [x0; x1; x2] a b w /\
  ishigami [x0; x1 + PI; x2] a b w = ishigami [x0; x1; x2] a b w.
Proof.
  split; py_run; apply Ok_eq.
  - rewrite sin_neg. ring.
  - rewrite neg_sin. ring.
Qed.

(** X9: [ishigami] is symmetric about [x0 = PI/2]: it takes the same value
    at [PI - x0] and at [x0]. *)
Theorem ishigami_x0_reflection (x0 x1 x2 : R) (a b : option R) (w : W) :
  ishigami [PI - x0; x1; x2] a b w = ishigami [x0; x1; x2] a b w.
Proof.
  py_run. apply Ok_eq. now rewrite sin_PI_x.
Qed.

(** X10: [ishigami] vanishes wherever the first two coordinates are integer
    multiples of [PI], whatever the third coordinate and the parameters. *)
Theorem ishigami_zeros (k j : Z) (x2 : R) (a b : option R) (w : W) :
  ishigami [IZR k * PI; IZR j * PI; x2] a b w = (Ok 0, w).
Proof.
  py_run. apply Ok_eq. rewrite !sin_int_mult_PI. ring.
Qed.

End IshigamiProperties.

Section EoqProperties.

Context {W : Type}.

Local Open Scope R_scope.

(** X11: on its domain, [eoq_model] returns the non-negative solution [q]
    of [q * q * (r * c) = 24 * m * s]. *)
Theorem eoq_model_square (m c s r : R) (w : W) :
  eoq_domain m c s r ->
  exists q,
    eoq_model [m; c; s] (Some r) w = (Ok q, w) /\
    0 <= q /\
    q * q * (r * c) = 24 * m * s.
Proof.
  intros [Hrc Hrad].
  exists (sqrt (24 * m * s / (r * c))).
  split; [now apply eoq_model_value | split].
  - apply sqrt_pos.
  - rewrite sqrt_sqrt by exact Hrad.
    unfold Rdiv. rewrite Rmult_assoc, Rinv_l by exact Hrc. ring.
Qed.

(** X12: the square-root law: on the domain, multiplying the demand [m] by
    [k * k] for a [k >= 0] multiplies the result by [k]. *)
Theorem eoq_model_demand_scale (k m c s r : R) (w : W) :
  0 <= k ->
  eoq_domain m c s r ->
  eoq_model [k * k * m; c; s] (Some r) w
  = (q <- eoq_model [m; c; s] (Some r) ;; ret (k * q)) w.
Proof.
  intros Hk [Hrc Hrad].
  rewrite (bind_value _ _ _ _ _ (eoq_model_value m c s r w Hrc)).
  rewrite eoq_model_value by exact Hrc.
  apply Ok_eq.
  replace (24 * (k * k * m) * s / (r * c))
    with (k * k * (24 * m * s / (r * c))) by (unfold Rdiv; ring).
  rewrite sqrt_mult_alt by nra.
  now rewrite sqrt_square.
Qed.

(** X13: for [m * s > 0] and a positive price [c], the result strictly
    decreases as a positive interest rate grows. *)
Theorem eoq_model_decreasing_in_r (m c s r1 r2 : R) (w : W) :
  0 < m * s ->
  0 < c ->
  0 < r1 < r2 ->
  result_lt (fst (eoq_model [m; c; s] (Some r2) w))
            (fst (eoq_model [m; c; s] (Some r1) w)).
Proof.
  intros Hms Hc [Hr1 Hr12].
  assert (H1 : 0 < r1 * c) by (apply Rmult_lt_0_compat; lra).
  assert (H2 : 0 < r2 * c) by (apply Rmult_lt_0_compat; lra).
  rewrite !eoq_model_value by lra. cbn [fst result_lt].
  assert (Hinv : / (r2 * c) < / (r1 * c)).
  { apply Rinv_lt_contravar.
    - now apply Rmult_lt_0_compat.
    - apply Rmult_lt_compat_r; lra. }
  assert (Hpos : 0 < / (r2 * c)) by now apply Rinv_0_lt_compat.
  apply sqrt_lt_1_alt.
  replace (24 * m * s / (r2 * c)) with (24 * (m * s) * / (r2 * c))
    by (unfold Rdiv; ring).
  replace (24 * m * s / (r1 * c)) with (24 * (m * s) * / (r1 * c))
    by (unfold Rdiv; ring).
  split.
  - apply Rmult_le_pos; lra.
  - apply Rmult_lt_compat_l; lra.
Qed.

(** X18: on a vector of three reals, [eoq_model] raises
    [ZeroDivisionError] exactly when [r * c = 0]. *)
Theorem eoq_model_raises_iff (m c s r : R) (w : W) :
  eoq_model [m; c; s] (Some r) w = (Raise ZeroDivisionError, w)
  <-> r * c = 0.
Proof.
  split.
  - intro Hraise.
    destruct (Req_dec_T (r * c) 0) as [Hrc | Hrc]; [exact Hrc |].
    rewrite eoq_model_value in Hraise by exact Hrc. discriminate Hraise.
  - apply eoq_model_zero_divisor.
Qed.

End EoqProperties.

Section BoreholeProperties.

Context {W : Type}.

Local Open Scope R_scope.

(** On the physical range the logarithm of the radius ratio is positive. *)
Lemma borehole_log_pos (r_w r : R) : 0 < r_w < r -> 0 < ln (r / r_w).
Proof.
  intros [Hw Hr].
  rewrite <- ln_1. apply ln_increasing; [lra |].
  apply (Rmult_lt_reg_r r_w); [exact Hw |].
  unfold Rdiv. rewrite Rmult_assoc, Rinv_l by lra. lra.
Qed.

(** On the physical range the divisor [b * (1 + c + d)] exceeds both [b]
    and [b * d], which are positive. *)
Lemma borehole_divisor (r_w r T_u T_l L K_w : R) :
  borehole_domain r_w r T_u T_l L K_w ->
  let b := ln (r / r_w) in
  let c := 2 * L * T_u / (b * r_w ^ 2 * K_w) in
  let d := T_u / T_l in
  0 < b /\ 0 < b * d /\ b < b * (1 + c + d) /\ b * d < b * (1 + c + d).
Proof.
  intros (Hr & HTu & HTl & HL & HKw) b c d.
  assert (Hb : 0 < b) by now apply borehole_log_pos.
  assert (Hc : 0 < c).
  { apply Rdiv_lt_0_compat.
    - repeat apply Rmult_lt_0_compat; lra.
    - repeat apply Rmult_lt_0_compat; try apply pow_lt; lra. }
  assert (Hd : 0 < d) by (apply Rdiv_lt_0_compat; lra).
  repeat split; nra.
Qed.

(** X14: on the physical range the flow is proportional to the head
    difference: the value at heads [(H_u, H_l)] is [H_u - H_l] times the
    value at heads [(1, 0)]. *)
Theorem borehole_head_difference (r_w r T_u H_u T_l H_l L K_w : R) (w : W) :
  borehole_domain r_w r T_u T_l L K_w ->
  borehole [r_w; r; T_u; H_u; T_l; H_l; L; K_w] w
  = (q <- borehole [r_w; r; T_u; 1; T_l; 0; L; K_w] ;;
     ret ((H_u - H_l) * q)) w.
Proof.
  intros (Hr & _ & HTl & _).
  rewrite (bind_value _ _ _ _ _
             (borehole_value r_w r T_u 1 T_l 0 L K_w w
                ltac:(lra) ltac:(lra))).
  rewrite borehole_value by lra.
  apply Ok_eq. unfold Rdiv. ring.
Qed.

(** X15: on the physical range with the upper head above the lower one,
    the flow is positive and stays below both
    [2 * PI * T_u * (H_u - H_l) / ln (r / r_w)] and
    [2 * PI * T_l * (H_u - H_l) / ln (r / r_w)]. *)
Theorem borehole_flow_bounds (r_w r T_u H_u T_l H_l L K_w : R) (w : W) :
  borehole_domain r_w r T_u T_l L K_w ->
  H_l < H_u ->
  exists q,
    borehole [r_w; r; T_u; H_u; T_l; H_l; L; K_w] w = (Ok q, w) /\
    0 < q /\
    q < 2 * PI * T_u * (H_u - H_l) / ln (r / r_w) /\
    q < 2 * PI * T_l * (H_u - H_l) / ln (r / r_w).
Proof.
  intros Hdom Hhead.
  pose proof (borehole_divisor _ _ _ _ _ _ Hdom) as (Hb & Hbd & Hlt1 & Hlt2).
  destruct Hdom as (Hr & HTu & HTl & HL & HKw).
  cbv zeta in *.
  set (b := ln (r / r_w)) in *.
  set (c := 2 * L * T_u / (b * r_w ^ 2 * K_w)) in *.
  set (d := T_u / T_l) in *.
  set (a := 2 * PI * T_u * (H_u - H_l)).
  assert (Ha : 0 < a).
  { unfold a. pose proof PI_RGT_0.
    apply Rmult_lt_0_compat; [| lra].
    apply Rmult_lt_0_compat; lra. }
  exists (a / (b * (1 + c + d))).
  split; [apply borehole_value; lra | repeat split].
  - apply Rdiv_lt_0_compat; lra.
  - unfold Rdiv. apply Rmult_lt_compat_l; [exact Ha |].
    apply Rinv_lt_contravar; [nra | exact Hlt1].
  - replace (2 * PI * T_l * (H_u - H_l) / b) with (a / (b * d))
      by (unfold a, d; field; lra).
    unfold Rdiv. apply Rmult_lt_compat_l; [exact Ha |].
    apply Rinv_lt_contravar; [nra | exact Hlt2].
Qed.

(** X16: on the physical range the flow strictly increases with the upper
    head. *)
Theorem borehole_increasing_in_head
    (r_w r T_u H1 H2 T_l H_l L K_w : R) (w : W) :
  borehole_domain r_w r T_u T_l L K_w ->
  H1 < H2 ->
  result_lt (fst (borehole [r_w; r; T_u; H1; T_l; H_l; L; K_w] w))
            (fst (borehole [r_w; r; T_u; H2; T_l; H_l; L; K_w] w)).
Proof.
  intros Hdom Hhead.
  pose proof (borehole_divisor _ _ _ _ _ _ Hdom) as (Hb & Hbd & Hlt1 & Hlt2).
  destruct Hdom as (Hr & HTu & HTl & HL & HKw).
  cbv zeta in *.
  rewrite !borehole_value by lra. cbn [fst result_lt].
  unfold Rdiv at 1 4. apply Rmult_lt_compat_r.
  - apply Rinv_0_lt_compat. lra.
  - pose proof PI_RGT_0. apply Rmult_lt_compat_l.
    + apply Rmult_lt_0_compat; lra.
    + lra.
Qed.

(** X17: on the physical range, scaling both transmissivities and the
    conductivity by the same positive factor scales the flow by it. *)
Theorem borehole_transmissivity_scale
    (k r_w r T_u H_u T_l H_l L K_w : R) (w : W) :
  borehole_domain r_w r T_u T_l L K_w ->
  0 < k ->
  borehole [r_w; r; k * T_u; H_u; k * T_l; H_l; L; k * K_w] w
  = (q <- borehole [r_w; r; T_u; H_u; T_l; H_l; L; K_w] ;;
     ret (k * q)) w.
Proof.
  intros Hdom Hk.
  pose proof (borehole_divisor _ _ _ _ _ _ Hdom) as (Hb & _).
  destruct Hdom as (Hr & HTu & HTl & HL & HKw).
  cbv zeta in Hb.
  rewrite (bind_value _ _ _ _ _
             (borehole_value r_w r T_u H_u T_l H_l L K_w w
                ltac:(lra) ltac:(lra))).
  rewrite borehole_value by nra.
  apply Ok_eq.
  set (b := ln (r / r_w)) in *.
  replace (2 * L * (k * T_u) / (b * r_w ^ 2 * (k * K_w)))
    with (2 * L * T_u / (b * r_w ^ 2 * K_w)) by (field; lra).
  replace (k * T_u / (k * T_l)) with (T_u / T_l) by (field; lra).
  unfold Rdiv. ring.
Qed.

(** X19: on a vector of eight reals, [borehole] raises
    [ZeroDivisionError] exactly when the borehole radius [r_w] or the lower
    transmissivity [T_l] is zero. *)
Theorem borehole_raises_iff (r_w r T_u H_u T_l H_l L K_w : R) (w : W) :
  borehole [r_w; r; T_u; H_u; T_l; H_l; L; K_w] w
  = (Raise ZeroDivisionError, w)
  <-> r_w = 0 \/ T_l = 0.
Proof.
  split.
  - intro Hraise.
    destruct (Req_dec_T r_w 0) as [Hw | Hw]; [now left |].
    destruct (Req_dec_T T_l 0) as [Hl | Hl]; [now right |].
    rewrite borehole_value in Hraise by assumption. discriminate Hraise.
  - apply borehole_zero_divisor.
Qed.

(** The physical range lies inside the domain of the formula. *)
Lemma borehole_domain_defined (r_w r T_u T_l L K_w : R) :
  borehole_domain r_w r T_u T_l L K_w ->
  borehole_defined r_w r T_u T_l L K_w.
Proof.
  intro Hdom.
  pose proof (borehole_divisor _ _ _ _ _ _ Hdom) as (Hb & Hbd & Hlt1 & Hlt2).
  destruct Hdom as (Hr & HTu & HTl & HL & HKw).
  cbv zeta in *.
  repeat split.
  - lra.
  - lra.
  - apply Rdiv_lt_0_compat; lra.
  - apply Rgt_not_eq.
    repeat apply Rmult_lt_0_compat; try apply pow_lt; lra.
  - apply Rgt_not_eq. lra.
Qed.

End BoreholeProperties.

(** ** Instances of the conditional properties *)

Local Open Scope R_scope.

(** The order theorem on [1, 2, 3] and its rotation [3, 1, 2]. *)
Lemma simple_linear_function_perm_witness :
  Permutation [1; 2; 3] [3; 1; 2] /\
  simple_linear_function [1; 2; 3] tt = simple_linear_function [3; 1; 2] tt.
Proof.
  split.
  - exact (Permutation_app_comm [1; 2] [3]).
  - apply (simple_linear_function_perm [1; 2; 3] [3; 1; 2] tt).
    exact (Permutation_app_comm [1; 2] [3]).
Defined.

(** The docstring's arguments lie in the domain of [eoq_model]. *)
Lemma eoq_domain_docstring : eoq_domain 1 2 3 0.1.
Proof. unfold eoq_domain. split; lra. Defined.

Lemma eoq_model_square_witness :
  eoq_domain 1 2 3 0.1 /\
  exists q,
    eoq_model [1; 2; 3] (Some 0.1) tt = (Ok q, tt) /\
    0 <= q /\
    q * q * (0.1 * 2) = 24 * 1 * 3.
Proof.
  split; [exact eoq_domain_docstring |].
  exact (eoq_model_square 1 2 3 0.1 tt eoq_domain_docstring).
Defined.

(** Four times the demand, twice the order quantity. *)
Lemma eoq_model_demand_scale_witness :
  0 <= 2 /\ eoq_domain 1 2 3 0.1 /\
  eoq_model [2 * 2 * 1; 2; 3] (Some 0.1) tt
  = (q <- eoq_model [1; 2; 3] (Some 0.1) ;; ret (2 * q)) tt.
Proof.
  split; [lra | split; [exact eoq_domain_docstring |]].
  apply (eoq_model_demand_scale 2 1 2 3 0.1 tt);
    [lra | exact eoq_domain_docstring].
Defined.

Lemma eoq_model_decreasing_in_r_witness :
  0 < 1 * 3 /\ 0 < 2 /\ 0 < 0.1 < 0.2 /\
  result_lt (fst (eoq_model [1; 2; 3] (Some 0.2) tt))
            (fst (eoq_model [1; 2; 3] (Some 0.1) tt)).
Proof.
  split; [lra | split; [lra | split; [lra |]]].
  apply (eoq_model_decreasing_in_r 1 2 3 0.1 0.2 tt); lra.
Defined.

(** The reference aquifer: borehole radius 0.1, radius of influence 1000,
    transmissivities 100000 and 100, length 1500, conductivity 10000. *)
Lemma borehole_domain_reference :
  borehole_domain 0.1 1000 100000 100 1500 10000.
Proof. unfold borehole_domain. repeat split; lra. Defined.

Lemma borehole_flow_bounds_witness :
  borehole_domain 0.1 1000 100000 100 1500 10000 /\ 700 < 1000 /\
  exists q,
    borehole [0.1; 1000; 100000; 1000; 100; 700; 1500; 10000] tt
    = (Ok q, tt) /\
    0 < q /\
    q < 2 * PI * 100000 * (1000 - 700) / ln (1000 / 0.1) /\
    q < 2 * PI * 100 * (1000 - 700) / ln (1000 / 0.1).
Proof.
  split; [exact borehole_domain_reference | split; [lra |]].
  apply (borehole_flow_bounds 0.1 1000 100000 1000 100 700 1500 10000 tt);
    [exact borehole_domain_reference | lra].
Defined.

Lemma borehole_increasing_in_head_witness :
  borehole_domain 0.1 1000 100000 100 1500 10000 /\ 990 < 1000 /\
  result_lt
    (fst (borehole [0.1; 1000; 100000; 990; 100; 700; 1500; 10000] tt))
    (fst (borehole [0.1; 1000; 100000; 1000; 100; 700; 1500; 10000] tt)).
Proof.
  split; [exact borehole_domain_reference | split; [lra |]].
  apply (borehole_increasing_in_head
           0.1 1000 100000 990 1000 100 700 1500 10000 tt);
    [exact borehole_domain_reference | lra].
Defined.

Lemma borehole_transmissivity_scale_witness :
  borehole_domain 0.1 1000 100000 100 1500 10000 /\ 0 < 2 /\
  borehole [0.1; 1000; 2 * 100000; 1000; 2 * 100; 700; 1500; 2 * 10000] tt
  = (q <- borehole [0.1; 1000; 100000; 1000; 100; 700; 1500; 10000] ;;
     ret (2 * q)) tt.
Proof.
  split; [exact borehole_domain_reference | split; [lra |]].
  apply (borehole_transmissivity_scale
           2 0.1 1000 100000 1000 100 700 1500 10000 tt);
    [exact borehole_domain_reference | lra].
Defined.

Lemma borehole_head_difference_witness :
  borehole_domain 0.1 1000 100000 100 1500 10000 /\
  borehole [0.1; 1000; 100000; 1000; 100; 700; 1500; 10000] tt
  = (q <- borehole [0.1; 1000; 100000; 1; 100; 0; 1500; 10000] ;;
     ret ((1000 - 700) * q)) tt.
Proof.
  split; [exact borehole_domain_reference |].
  apply (borehole_head_difference 0.1 1000 100000 1000 100 700 1500 10000 tt).
  exact borehole_domain_reference.
Defined.

(** The amended formula of [eoq_model] at the docstring's arguments. *)
Lemma eoq_model_formula_witness :
  eoq_domain 1 2 3 0.1 /\
  eoq_model [1; 2; 3] (Some 0.1) tt
  = (Ok (sqrt ((24 * 1 * 3) / (0.1 * 2))), tt) /\
  eoq_model [1; 2; 3] None tt
  = eoq_model [1; 2; 3] (Some (kwarg None 0.1)) tt.
Proof.
  split; [exact eoq_domain_docstring |].
  exact (eoq_model_formula 1 2 3 0.1 None tt eoq_domain_docstring).
Defined.

(** C1, as stated, fails at a zero price: with [c = 0] the divisor [r * c]
    is zero and the call raises [ZeroDivisionError] instead of returning
    the value of the formula; so it does in binary64 arithmetic. *)
Lemma eoq_model_zero_price_raises :
  eoq_model [1; 0; 3] None tt = (Raise ZeroDivisionError, tt) /\
  eoq_model [1; 0; 3] None tt
  <> (Ok (sqrt ((24 * 1 * 3) / (0.1 * 0))), tt) /\
  eoq_model [1; 0; 3]%float None tt = (Raise ZeroDivisionError, tt).
Proof.
  assert (Hraise : eoq_model [1; 0; 3] None tt
                   = (Raise ZeroDivisionError, tt)).
  { change (eoq_model [1; 0; 3] (Some 0.1) tt
            = (Raise ZeroDivisionError, tt)).
    apply eoq_model_zero_divisor. lra. }
  split; [exact Hraise | split].
  - rewrite Hraise. discriminate.
  - vm_compute. reflexivity.
Qed.

(** The reference aquifer lies in the domain of the formula. *)
Lemma borehole_defined_reference :
  borehole_defined 0.1 1000 100000 100 1500 10000.
Proof.
  exact (borehole_domain_defined _ _ _ _ _ _ borehole_domain_reference).
Defined.

(** The amended formula of [borehole] at the reference aquifer. *)
Lemma borehole_formula_witness :
  borehole_defined 0.1 1000 100000 100 1500 10000 /\
  borehole [0.1; 1000; 100000; 1000; 100; 700; 1500; 10000] tt
  = (Ok (2 * PI * 100000 * (1000 - 700)
         / (ln (1000 / 0.1)
            * (1 + (2 * 1500 * 100000)
                   / (ln (1000 / 0.1) * 0.1 ^ 2 * 10000)
               + 100000 / 100))), tt).
Proof.
  split; [exact borehole_defined_reference |].
  exact (borehole_formula 0.1 1000 100000 1000 100 700 1500 10000 tt
           borehole_defined_reference).
Defined.

(** C2, as stated, fails at a zero borehole radius: with [r_w = 0] the
    division [r / r_w] raises [ZeroDivisionError] instead of returning the
    value of the formula. *)
Lemma borehole_zero_radius_raises :
  borehole [0; 1000; 100000; 1000; 100; 700; 1500; 10000] tt
  = (Raise ZeroDivisionError, tt) /\
  borehole [0; 1000; 100000; 1000; 100; 700; 1500; 10000] tt
  <> (Ok (2 * PI * 100000 * (1000 - 700)
          / (ln (1000 / 0)
             * (1 + (2 * 1500 * 100000) / (ln (1000 / 0) * 0 ^ 2 * 10000)
                + 100000 / 100))), tt).
Proof.
  assert (Hraise : borehole [0; 1000; 100000; 1000; 100; 700; 1500; 10000] tt
                   = (Raise ZeroDivisionError, tt)).
  { apply borehole_zero_divisor. now left. }
  split; [exact Hraise |].
  rewrite Hraise. discriminate.
Qed.
